(** * tamr_client.attributes.attribute

    A shallow embedding of the attribute resource model of the Tamr client
    ([tamr_client/attributes/attribute.py]): addressing, JSON
    (de)serialization and the create / fetch / update / delete protocol,
    together with the properties its specification states about them. *)

From Stdlib Require Import ZArith Floats.
From stdpp Require Import gmap strings list fin_maps.

#[local] Set Warnings "-register-all".
#[local] Open Scope Z_scope.
#[local] Open Scope string_scope.
#[local] Open Scope list_scope.

(** ** JSON values

    The values [requests.Response.json()] hands back: [None], booleans,
    integers, floats, strings, lists, and dictionaries with string keys.
    Dictionaries compare by content, so they are finite maps. *)

Inductive json : Type :=
  | JNull
  | JBool (b : bool)
  | JInt (n : Z)
  | JFloat (x : float)
  | JStr (s : string)
  | JArr (items : list json)
  | JObj (fields : gmap string json).

Abbreviation JsonDict := (gmap string json).

(** [x is not None] *)
Definition is_not_None (v : json) : bool :=
  match v with JNull => false | _ => true end.

(** An [Optional[str]] argument as the JSON value it is sent as. *)
Definition of_optional_str (o : option string) : json :=
  match o with Some s => JStr s | None => JNull end.

(** ** Responses and exceptions *)

Record Response := { status_code : Z; content : option json }.

Inductive exn : Type :=
  | AttributeNotFound (url : string)
  | AttributeExists (url : string)
  | ReservedAttributeName (name : string)
  | HTTPError (r : Response)
  | ConnectionError
  | JSONDecodeError
  | KeyError (key : string)
  | TypeError
  | AttributeError
  | ValueError (msg : string).

Inductive result (A : Type) : Type :=
  | Ok (a : A)
  | Raise (e : exn).
Arguments Ok {A} a.
Arguments Raise {A} e.

#[global] Instance result_bind : MBind result := λ A B f m,
  match m with Ok a => f a | Raise e => Raise e end.

(** [r.json()]: the decoded body, or a decoding error when the body is not
    JSON. *)
Definition Response_json (r : Response) : result json :=
  match content r with
  | Some j => Ok j
  | None => Raise JSONDecodeError
  end.

Module response.

Definition is_2xx (status : Z) : bool :=
  bool_decide (200 ≤ status < 300).

(** Modelled from the spec: [tamr_client.response.successful] is not part
    of this module's source; it is the helper that raises a transport-level
    error for any status not in the 2xx range and returns the response
    otherwise. *)
Definition successful (r : Response) : result Response :=
  if is_2xx (status_code r) then Ok r else Raise (HTTPError r).

End response.

(** ** URLs and datasets *)

(** Modelled from the spec: the URL value type ([tamr_client.url.URL]) is
    not part of this module's source; it is an immutable structured value
    with a [path] component that supports path-append.  [origin] stands for
    its remaining components, which this module never touches. *)
Record URL := { origin : string; path : string }.

(** [dataclasses.replace(u, path=p)] *)
Definition replace (u : URL) (p : string) : URL :=
  {| origin := origin u; path := p |}.

Module dataset.

(** The dataset value is opaque here beyond its [url]. *)
Record Dataset := { url : URL }.

End dataset.

Abbreviation Dataset := dataset.Dataset.

(** ** The session

    A [Session] performs HTTP exchanges.  The server behind it is an
    arbitrary deterministic function of the exchanges made so far; the
    session keeps the list of requests it has sent, oldest first.  An
    exchange either yields a response or raises a transport-level error. *)

Inductive verb := GET | POST | PUT | DELETE.

Record Request := { method : verb; target : string; body : option json }.

Record Session := {
  server : list Request → Request → result Response;
  history : list Request
}.

Definition request (session : Session) (rq : Request)
  : result Response * Session :=
  (server session (history session) rq,
   {| server := server session; history := history session ++ [rq] |}).

Module session.

Definition get (s : Session) (url : string) :=
  request s {| method := GET; target := url; body := None |}.

Definition post (s : Session) (url : string) (json : json) :=
  request s {| method := POST; target := url; body := Some json |}.

Definition put (s : Session) (url : string) (json : json) :=
  request s {| method := PUT; target := url; body := Some json |}.

Definition delete (s : Session) (url : string) :=
  request s {| method := DELETE; target := url; body := None |}.

End session.

(** ** External collaborators

    The attribute-type codec, the rendering of a URL as a string and
    Python's [str()] on non-string values live outside this module. *)

Class Collaborators := {
  AttributeType : Type;
  attribute_type_to_json : AttributeType → json;
  attribute_type_from_json : json → result AttributeType;
  URL_str : URL → string;
  py_str : json → string
}.

(** [f"{v}"]: a string is inserted as it is, any other value through
    [str()]. *)
Definition fstr `{Collaborators} (v : json) : string :=
  match v with JStr s => s | _ => py_str v end.

(** [d[key]] on a decoded JSON value: only a dictionary can be subscripted
    with a string. *)
Definition getitem (d : json) (key : string) : result json :=
  match d with
  | JObj fields =>
      match fields !! key with
      | Some v => Ok v
      | None => Raise (KeyError key)
      end
  | _ => Raise TypeError
  end.

(** [d.get(key)]: the value under [key], [None] when the key is absent. *)
Definition get (d : json) (key : string) : result json :=
  match d with
  | JObj fields => Ok (default JNull (fields !! key))
  | _ => Raise AttributeError
  end.

(** [for x in v]: the elements of a list, the keys of a dictionary, the
    characters of a string; nothing else is iterable.  (The order of a
    dictionary's keys is the map's, which no caller here can observe.) *)
Definition iter (v : json) : result (list json) :=
  match v with
  | JArr items => Ok items
  | JObj fields => Ok (JStr <$> (map_to_list fields).*1)
  | JStr s =>
      Ok ((λ c, JStr (String c EmptyString)) <$> String.list_ascii_of_string s)
  | _ => Raise TypeError
  end.

(** ** Reserved names *)

Definition _RESERVED_NAMES : gset string :=
  list_to_set
    [ "origin_source_name"; "tamr_id"; "origin_entity_id";
      "clusterId"; "originSourceId"; "originEntityId"; "sourceId";
      "entityId"; "suggestedClusterId"; "verificationType";
      "verifiedClusterId" ].

Section attribute.
Context `{Collaborators}.

(** ** The attribute value

    The dataclass is frozen but does not check its annotations at run time:
    [name], [is_nullable] and [description] hold whatever JSON value the
    payload carried ([None] is [JNull]). *)
Record Attribute := {
  url : URL;
  name : json;
  type : AttributeType;
  is_nullable : json;
  _json : json;
  description : json
}.

(** Make attribute from JSON data (deserialize). *)
Definition _from_json (url : URL) (data : json) : result Attribute :=
  let cp := data in (* deepcopy: the identity on immutable values *)
  name ← getitem cp "name";
  description ← get cp "description";
  is_nullable ← getitem cp "isNullable";
  ty ← getitem cp "type" ≫= attribute_type_from_json;
  Ok {| url := url; name := name; type := ty; is_nullable := is_nullable;
        _json := cp; description := description |}.

(** Get attribute by URL. *)
Definition _from_url (session : Session) (url : URL)
  : result Attribute * Session :=
  let '(r, session) := session.get session (URL_str url) in
  (r ← r;
   if bool_decide (status_code r = 404)
   then Raise (AttributeNotFound (URL_str url))
   else
     data ← response.successful r ≫= Response_json;
     _from_json url data,
   session).

(** Get attribute by resource ID. *)
Definition from_resource_id (session : Session) (dataset : Dataset)
    (id : string) : result Attribute * Session :=
  let url :=
    replace (dataset.url dataset)
      (path (dataset.url dataset) +:+ "/attributes/" +:+ id) in
  _from_url session url.

(** The loop of [from_dataset_all]: [attrs] is the list built so far. *)
Fixpoint from_dataset_all_loop (attrs_url : URL) (attrs_json : list json)
    (attrs : list Attribute) : result (list Attribute) :=
  match attrs_json with
  | [] => Ok attrs
  | attr_json :: attrs_json =>
      id ← getitem attr_json "name";
      let attr_url := replace attrs_url (path attrs_url +:+ "/" +:+ fstr id) in
      attr ← _from_json attr_url attr_json;
      from_dataset_all_loop attrs_url attrs_json (attrs ++ [attr])
  end.

(** Get all attributes from a dataset. *)
Definition from_dataset_all (session : Session) (dataset : Dataset)
  : result (list Attribute) * Session :=
  let attrs_url :=
    replace (dataset.url dataset)
      (path (dataset.url dataset) +:+ "/attributes") in
  let '(r, session) := session.get session (URL_str attrs_url) in
  (r ← r;
   attrs_json ← response.successful r ≫= Response_json;
   items ← iter attrs_json;
   from_dataset_all_loop attrs_url items [],
   session).

(** Serialize attribute into JSON. *)
Definition to_json (attr : Attribute) : JsonDict :=
  let d : JsonDict :=
    <["isNullable" := is_nullable attr]>
      (<["type" := attribute_type_to_json (type attr)]>
         (<["name" := name attr]> ∅)) in
  if is_not_None (description attr)
  then <["description" := description attr]> d
  else d.

(** Same as [create], but does not check for reserved attribute names. *)
Definition _create (session : Session) (dataset : Dataset) (name : string)
    (is_nullable : bool) (type : AttributeType) (description : option string)
  : result Attribute * Session :=
  let attrs_url :=
    replace (dataset.url dataset)
      (path (dataset.url dataset) +:+ "/attributes") in
  let url := replace attrs_url (path attrs_url +:+ "/" +:+ name) in
  let body : JsonDict :=
    <["isNullable" := JBool is_nullable]>
      (<["type" := attribute_type_to_json type]>
         (<["name" := JStr name]> ∅)) in
  let body :=
    match description with
    | Some d => <["description" := JStr d]> body
    | None => body
    end in
  let '(r, session) := session.post session (URL_str attrs_url) (JObj body) in
  (r ← r;
   if bool_decide (status_code r = 409)
   then Raise (AttributeExists (URL_str url))
   else
     data ← response.successful r ≫= Response_json;
     _from_json url data,
   session).

(** Create an attribute: posts a creation request unless the name is
    reserved. *)
Definition create (session : Session) (dataset : Dataset) (name : string)
    (is_nullable : bool) (type : AttributeType) (description : option string)
  : result Attribute * Session :=
  if bool_decide (name ∈ _RESERVED_NAMES)
  then (Raise (ReservedAttributeName name), session)
  else _create session dataset name is_nullable type description.

(** Update an existing attribute. *)
Definition update (session : Session) (attribute : Attribute)
    (description : option string) : result Attribute * Session :=
  let updates : JsonDict := {[ "description" := of_optional_str description ]} in
  let '(r, session) :=
    session.put session (URL_str (url attribute)) (JObj updates) in
  (r ← r;
   if bool_decide (status_code r = 404)
   then Raise (AttributeNotFound (URL_str (url attribute)))
   else
     data ← response.successful r ≫= Response_json;
     _from_json (url attribute) data,
   session).

(** Delete an existing attribute; nothing is returned. *)
Definition delete (session : Session) (attribute : Attribute)
  : result unit * Session :=
  let '(r, session) := session.delete session (URL_str (url attribute)) in
  (r ← r;
   if bool_decide (status_code r = 404)
   then Raise (AttributeNotFound (URL_str (url attribute)))
   else
     _ ← response.successful r;
     Ok (),
   session).

End attribute.

(** ** Examples

    A two-type codec, a plain URL rendering, and a fake session that answers
    from a fixed table and counts what it is asked. *)

Module sample.

Inductive primitive := STRING | DOUBLE.

Definition primitive_to_json (t : primitive) : json :=
  JObj {[ "baseType" :=
            JStr match t with STRING => "STRING" | DOUBLE => "DOUBLE" end ]}.

Definition primitive_from_json (j : json) : result primitive :=
  base ← getitem j "baseType";
  match base with
  | JStr s =>
      if bool_decide (s = "STRING") then Ok STRING
      else if bool_decide (s = "DOUBLE") then Ok DOUBLE
      else Raise (ValueError s)
  | _ => Raise TypeError
  end.

(** [str()] is only exercised on [None] and booleans in the examples. *)
Definition str (v : json) : string :=
  match v with
  | JNull => "None"
  | JBool true => "True"
  | JBool false => "False"
  | _ => ""
  end.

#[global] Instance collaborators : Collaborators := {|
  AttributeType := primitive;
  attribute_type_to_json := primitive_to_json;
  attribute_type_from_json := primitive_from_json;
  URL_str := λ u, origin u +:+ "/" +:+ path u;
  py_str := str
|}.

Definition ds7 : Dataset :=
  {| dataset.url := {| origin := "http://tamr"; path := "datasets/7" |} |}.

(** A session that has sent nothing yet and answers every request with
    [answer]. *)
Definition fake (answer : Request → result Response) : Session :=
  {| server := λ _ rq, answer rq; history := [] |}.

Definition always (status : Z) (content : option json) : Session :=
  fake (λ _, Ok {| status_code := status; content := content |}).

(** The payload of a nullable STRING attribute. *)
Definition attr_dict (name : string) (description : option string)
  : JsonDict :=
  let d : JsonDict :=
    <["isNullable" := JBool true]>
      (<["type" := primitive_to_json STRING]> (<["name" := JStr name]> ∅)) in
  match description with
  | Some s => <["description" := JStr s]> d
  | None => d
  end.

Definition attr_json (name : string) (description : option string) : json :=
  JObj (attr_dict name description).

Definition attrs_url7 : URL :=
  {| origin := "http://tamr"; path := "datasets/7/attributes" |}.

(** That attribute as fetched from dataset 7. *)
Definition attr (name : string) (description : option string) : Attribute :=
  {| url := {| origin := "http://tamr";
               path := "datasets/7/attributes/" +:+ name |};
     name := JStr name; type := STRING; is_nullable := JBool true;
     _json := attr_json name description;
     description := of_optional_str description |}.

(** The payload of attribute "a" with a key the wire format does not
    know, and the attribute it deserializes to. *)
Definition versioned_dict : JsonDict :=
  <["version" := JInt 3]> (attr_dict "a" None).

Definition versioned : Attribute :=
  {| url := attrs_url7; name := JStr "a"; type := STRING;
     is_nullable := JBool true; _json := JObj versioned_dict;
     description := JNull |}.

(** A server that answers every request with status 201 and the request's
    own body. *)
Definition echo : Session :=
  fake (λ rq, Ok {| status_code := 201; content := body rq |}).

Definition is_delete_of (url : string) (rq : Request) : bool :=
  match method rq with
  | DELETE => String.eqb (target rq) url
  | _ => false
  end.

(** A server that removes a resource on the first DELETE of its URL and
    answers 404 to a DELETE of a URL it has already removed. *)
Definition removing : Session :=
  {| server := λ sent rq,
       Ok {| status_code :=
               if existsb (is_delete_of (target rq)) sent then 404 else 200;
             content := None |};
     history := [] |}.


End sample.

(** ** Vocabulary of the specification *)

Section vocabulary.
Context `{Collaborators}.

(** How an item operation at [url] maps the status of the response [r] to
    its result [res], where [on_success] is what a 2xx response yields. *)
Definition status_outcome {A} (url : URL) (r : Response)
    (on_success res : result A) : Prop :=
  (status_code r = 404 → res = Raise (AttributeNotFound (URL_str url)))
  ∧ (status_code r ≠ 404 → ¬ (200 ≤ status_code r < 300) →
     res = Raise (HTTPError r))
  ∧ (200 ≤ status_code r < 300 → res = on_success).

(** [attr] is the deserialization of the collection element [o] at the item
    URL formed from the collection URL and the element's "name". *)
Definition deserialized_at (attrs_url : URL) (o : json) (attr : Attribute)
  : Prop :=
  ∃ id, getitem o "name" = Ok id
        ∧ _from_json
            (replace attrs_url (path attrs_url +:+ "/" +:+ fstr id)) o
          = Ok attr.

(** One round of the loop of [from_dataset_all]: the attribute for the
    collection element [o], or the exception that round raises. *)
Definition deserialize_item (attrs_url : URL) (o : json) : result Attribute :=
  id ← getitem o "name";
  _from_json (replace attrs_url (path attrs_url +:+ "/" +:+ fstr id)) o.

(** What an operation that reads the response body yields when a success
    response carries no JSON dictionary. *)
Definition body_not_a_dictionary (r : Response) (res : result Attribute)
  : Prop :=
  (content r = None → res = Raise JSONDecodeError)
  ∧ (∀ data, content r = Some data → (∀ cp, data ≠ JObj cp) →
       res = Raise TypeError).

(** The Create operation in the words of the specification: compute the
    collection URL and the prospective item URL (the collection URL with
    "/" and the name appended); build the body as the serializer would
    (name, type, isNullable, and the description when there is one); POST
    it to the collection URL; on status 409 fail with [AttributeExists]
    carrying the item URL; on any other status outside 2xx fail with the
    transport's error; on success deserialize the response body at the item
    URL.  No name is turned away. *)
Definition Create_as_specified (session : Session) (dataset : Dataset)
    (nm : string) (nullable : bool) (ty : AttributeType)
    (desc : option string) : result Attribute * Session :=
  let collection_url :=
    replace (dataset.url dataset)
      (path (dataset.url dataset) +:+ "/attributes") in
  let item_url :=
    replace collection_url (path collection_url +:+ "/" +:+ nm) in
  let payload :=
    to_json {| url := item_url; name := JStr nm; type := ty;
               is_nullable := JBool nullable; _json := JNull;
               description := of_optional_str desc |} in
  let rq := {| method := POST; target := URL_str collection_url;
               body := Some (JObj payload) |} in
  (match server session (history session) rq with
   | Raise e => Raise e
   | Ok r =>
       if bool_decide (status_code r = 409)
       then Raise (AttributeExists (URL_str item_url))
       else if bool_decide (200 ≤ status_code r < 300)
       then match content r with
            | Some data => _from_json item_url data
            | None => Raise JSONDecodeError
            end
       else Raise (HTTPError r)
   end,
   {| server := server session; history := history session ++ [rq] |}).

End vocabulary.

(** * Properties *)

Section properties.
Context `{Collaborators}.

Implicit Types (session : Session) (dataset : Dataset) (r : Response).
Implicit Types (u : URL) (a attr : Attribute) (cp : JsonDict).

(** ** The result monad *)

Lemma bind_Ok {A B} (m : result A) (f : A → result B) (b : B) :
  m ≫= f = Ok b ↔ ∃ x, m = Ok x ∧ f x = Ok b.
Proof.
  destruct m as [x|e]; simpl; split.
  - eauto.
  - by intros (? & [= <-] & ?).
  - done.
  - by intros (? & ? & _).
Qed.

Lemma bind_assoc {A B C} (m : result A) (f : A → result B)
    (g : B → result C) :
  (m ≫= f) ≫= g = m ≫= (λ x, f x ≫= g).
Proof. by destruct m. Qed.

Lemma getitem_Ok cp key v :
  getitem (JObj cp) key = Ok v ↔ cp !! key = Some v.
Proof.
  unfold getitem. destruct (cp !! key); split; congruence.
Qed.

Lemma getitem_absent cp key :
  cp !! key = None → getitem (JObj cp) key = Raise (KeyError key).
Proof. unfold getitem. by intros ->. Qed.

(** ** Reserved-name guard *)

Lemma history_not_extended {A} (l : list A) (x : A) : l ≠ l ++ [x].
Proof.
  intros Heq. apply (f_equal List.length) in Heq.
  rewrite length_app in Heq. simpl in Heq. lia.
Qed.

(** The reserved set, spelled out. *)
Lemma reserved_names name :
  name ∈ _RESERVED_NAMES ↔
  name ∈ [ "origin_source_name"; "tamr_id"; "origin_entity_id";
           "clusterId"; "originSourceId"; "originEntityId"; "sourceId";
           "entityId"; "suggestedClusterId"; "verificationType";
           "verifiedClusterId" ].
Proof. unfold _RESERVED_NAMES. by rewrite elem_of_list_to_set. Qed.

(** The request [_create] sends: a POST of the serialized arguments to the
    collection URL. *)
Lemma _create_history session dataset name nullable ty desc :
  ∃ rq, method rq = POST
        ∧ target rq =
            URL_str (replace (dataset.url dataset)
                       (path (dataset.url dataset) +:+ "/attributes"))
        ∧ history (_create session dataset name nullable ty desc).2
          = history session ++ [rq]
        ∧ server (_create session dataset name nullable ty desc).2
          = server session.
Proof.
  unfold _create, session.post, request. simpl.
  eexists. split_and!; [| | reflexivity | reflexivity]; reflexivity.
Qed.


(** C9: outside the reserved set the guarded [create] is the unguarded
    [_create]: same result and same session afterwards, hence the same
    request; [_create] sends its request for every name, reserved or not;
    for every name it is the specification's Create operation and nothing
    else; and on a reserved name it therefore differs from [create], which
    turns the name away. *)
Theorem create_is__create_when_not_reserved
    session dataset name nullable ty desc :
  (name ∉ _RESERVED_NAMES →
     create session dataset name nullable ty desc
     = _create session dataset name nullable ty desc)
  ∧ List.length (history (_create session dataset name nullable ty desc).2)
    = S (List.length (history session))
  ∧ _create session dataset name nullable ty desc
    = Create_as_specified session dataset name nullable ty desc
  ∧ (name ∈ _RESERVED_NAMES →
     _create session dataset name nullable ty desc
     ≠ create session dataset name nullable ty desc).
Proof.
  split_and!.
  - intros Hname. unfold create. by rewrite bool_decide_eq_false_2.
  - destruct (_create_history session dataset name nullable ty desc)
      as (rq & _ & _ & -> & _).
    rewrite length_app. simpl. lia.
  - unfold _create, Create_as_specified, session.post, request, to_json.
    destruct desc as [d|]; simpl.
    all: f_equal.
    all: destruct (server _ _ _) as [r|e]; simpl; [|done].
    all: case_bool_decide as H409; [done|].
    all: unfold response.successful, response.is_2xx.
    all: case_bool_decide as H2xx; simpl; [|done].
    all: unfold Response_json; by destruct (content r).
  - intros Hname Heq. apply (f_equal (λ res, history res.2)) in Heq.
    cbv beta in Heq.
    destruct (_create_history session dataset name nullable ty desc)
      as (rq & _ & _ & Hhist & _).
    rewrite Hhist in Heq.
    unfold create in Heq. rewrite bool_decide_eq_true_2 in Heq by done.
    simpl in Heq. symmetry in Heq. by apply history_not_extended in Heq.
Qed.

(** ** Serialization *)

Lemma is_not_None_spec (v : json) : is_not_None v = true ↔ v ≠ JNull.
Proof. by destruct v. Qed.

Lemma to_json_required attr :
  to_json attr !! "name" = Some (name attr)
  ∧ to_json attr !! "type" = Some (attribute_type_to_json (type attr))
  ∧ to_json attr !! "isNullable" = Some (is_nullable attr).
Proof. unfold to_json. by destruct (is_not_None (description attr)). Qed.

Lemma to_json_description attr :
  to_json attr !! "description"
  = if is_not_None (description attr) then Some (description attr) else None.
Proof. unfold to_json. by destruct (is_not_None (description attr)). Qed.

(** C8: the serialized attribute has the key "description" exactly when the
    description is not [None]; an empty string is kept, [None] leaves the
    key out (it is never sent as null); "name", "type" and "isNullable" are
    always there. *)
Theorem to_json_description_key attr :
  (is_Some (to_json attr !! "description") ↔ description attr ≠ JNull)
  ∧ (description attr = JStr "" →
       to_json attr !! "description" = Some (JStr ""))
  ∧ (description attr = JNull → to_json attr !! "description" = None)
  ∧ to_json attr !! "description" ≠ Some JNull
  ∧ is_Some (to_json attr !! "name")
  ∧ is_Some (to_json attr !! "type")
  ∧ is_Some (to_json attr !! "isNullable").
Proof.
  rewrite to_json_description.
  destruct (to_json_required attr) as (-> & -> & ->).
  split_and!; try by eexists.
  - rewrite <- is_not_None_spec.
    destruct (is_not_None (description attr)); split; done.
  - by intros ->.
  - by intros ->.
  - by destruct (description attr).
Qed.

(** C4: deserializing the serialization of an attribute at any URL yields an
    attribute with the same name, type, nullability and description,
    located at that URL, provided the attribute-type codec round-trips. *)
Theorem from_json_to_json_roundtrip attr u :
  (∀ t, attribute_type_from_json (attribute_type_to_json t) = Ok t) →
  ∃ attr', _from_json u (JObj (to_json attr)) = Ok attr'
           ∧ name attr' = name attr
           ∧ type attr' = type attr
           ∧ is_nullable attr' = is_nullable attr
           ∧ description attr' = description attr
           ∧ url attr' = u.
Proof.
  intros Hcodec. unfold _from_json, getitem, get.
  rewrite to_json_description.
  destruct (to_json_required attr) as (-> & -> & ->). simpl.
  rewrite Hcodec. simpl. eexists. split; [done|]. simpl.
  split_and!; try done.
  by destruct (description attr).
Qed.

(** What a successful deserialization read, field by field. *)
Lemma _from_json_Ok u data attr :
  _from_json u data = Ok attr ↔
  ∃ cp ty_json,
    data = JObj cp
    ∧ cp !! "name" = Some (name attr)
    ∧ default JNull (cp !! "description") = description attr
    ∧ cp !! "isNullable" = Some (is_nullable attr)
    ∧ cp !! "type" = Some ty_json
    ∧ attribute_type_from_json ty_json = Ok (type attr)
    ∧ url attr = u
    ∧ _json attr = data.
Proof.
  unfold _from_json. split.
  - destruct data as [| | | | | |cp]; try done. unfold getitem, get.
    destruct (cp !! "name") as [nm|] eqn:Hnm; [|done]. simpl.
    destruct (cp !! "isNullable") as [nl|] eqn:Hnl; [|done]. simpl.
    destruct (cp !! "type") as [tj|] eqn:Htj; [|done]. simpl.
    destruct (attribute_type_from_json tj) as [ty|] eqn:Hty; [|done]. simpl.
    intros [= <-]. simpl. by exists cp, tj.
  - intros (cp & tj & -> & Hnm & Hd & Hnl & Htj & Hty & Hu & Hj).
    unfold getitem, get. rewrite Hnm, Hnl, Htj. simpl. rewrite Hty. simpl.
    destruct attr; simpl in *. by subst.
Qed.

(** C7: a dictionary without "description" deserializes, when its required
    fields are there, to an attribute whose description is [None]; a
    dictionary without "isNullable" never deserializes: a [KeyError] is
    raised, for "isNullable" itself when "name" is present. *)
Theorem from_json_optional_and_required u cp :
  (cp !! "description" = None →
     ∀ attr, _from_json u (JObj cp) = Ok attr → description attr = JNull)
  ∧ (cp !! "description" = None →
     ∀ nm nl tj ty,
       cp !! "name" = Some nm → cp !! "isNullable" = Some nl →
       cp !! "type" = Some tj → attribute_type_from_json tj = Ok ty →
       _from_json u (JObj cp)
       = Ok {| url := u; name := nm; type := ty; is_nullable := nl;
               _json := JObj cp; description := JNull |})
  ∧ (cp !! "isNullable" = None →
     (∃ key, _from_json u (JObj cp) = Raise (KeyError key))
     ∧ (is_Some (cp !! "name") →
        _from_json u (JObj cp) = Raise (KeyError "isNullable"))).
Proof.
  split_and!.
  - intros Hd attr Hok.
    apply _from_json_Ok in Hok as (cp' & tj & [= <-] & _ & Hdesc & _).
    by rewrite Hd in Hdesc.
  - intros Hd nm nl tj ty Hnm Hnl Htj Hty.
    apply _from_json_Ok. exists cp, tj. simpl. by rewrite Hd.
  - intros Hnl. unfold _from_json, getitem, get. rewrite Hnl.
    destruct (cp !! "name") as [nm|]; simpl.
    + split; [by eexists | done].
    + split; [by eexists | by intros [? ?]].
Qed.

(** ** Status codes *)

Lemma successful_2xx r :
  200 ≤ status_code r < 300 → response.successful r = Ok r.
Proof.
  intros Hr. unfold response.successful, response.is_2xx.
  by rewrite bool_decide_eq_true_2.
Qed.

Lemma successful_not_2xx r :
  ¬ (200 ≤ status_code r < 300) →
  response.successful r = Raise (HTTPError r).
Proof.
  intros Hr. unfold response.successful, response.is_2xx.
  by rewrite bool_decide_eq_false_2.
Qed.

(** The check every item operation makes on its response. *)
Lemma status_outcome_404_then_successful {A} u r (k : Response → result A) :
  status_outcome u r (k r)
    (if bool_decide (status_code r = 404)
     then Raise (AttributeNotFound (URL_str u))
     else response.successful r ≫= k).
Proof.
  unfold status_outcome. split_and!.
  - intros H404. by rewrite bool_decide_eq_true_2.
  - intros H404 Hr. rewrite bool_decide_eq_false_2 by done.
    by rewrite successful_not_2xx.
  - intros Hr. rewrite bool_decide_eq_false_2 by lia.
    by rewrite successful_2xx.
Qed.

Lemma _from_url_outcome session u r :
  server session (history session)
    {| method := GET; target := URL_str u; body := None |} = Ok r →
  status_outcome u r (Response_json r ≫= _from_json u)
    (_from_url session u).1.
Proof.
  intros Hr. unfold _from_url, session.get, request. simpl. rewrite Hr. simpl.
  rewrite bind_assoc.
  apply (status_outcome_404_then_successful u r
           (λ r, Response_json r ≫= _from_json u)).
Qed.

(** C1: each item operation sends its request to the item URL and maps the
    status of the response the same way: 404 raises [AttributeNotFound]
    with that URL, any other status outside 2xx raises the transport's
    [HTTPError], and a 2xx status makes fetch and update return the
    deserialization of the response body and delete return nothing. *)
Theorem item_operations_status_mapping session :
  (∀ dataset id r,
     let u := replace (dataset.url dataset)
                (path (dataset.url dataset) +:+ "/attributes/" +:+ id) in
     server session (history session)
       {| method := GET; target := URL_str u; body := None |} = Ok r →
     status_outcome u r (Response_json r ≫= _from_json u)
       (from_resource_id session dataset id).1)
  ∧ (∀ attr desc r,
     server session (history session)
       {| method := PUT; target := URL_str (url attr);
          body := Some (JObj {[ "description" := of_optional_str desc ]}) |}
     = Ok r →
     status_outcome (url attr) r
       (Response_json r ≫= _from_json (url attr))
       (update session attr desc).1)
  ∧ (∀ attr r,
     server session (history session)
       {| method := DELETE; target := URL_str (url attr); body := None |}
     = Ok r →
     status_outcome (url attr) r (Ok ()) (delete session attr).1)
  ∧ (∀ dataset id attr desc,
     let u := replace (dataset.url dataset)
                (path (dataset.url dataset) +:+ "/attributes/" +:+ id) in
     history (from_resource_id session dataset id).2
     = history session
       ++ [{| method := GET; target := URL_str u; body := None |}]
     ∧ history (update session attr desc).2
       = history session
         ++ [{| method := PUT; target := URL_str (url attr);
                body := Some (JObj {[ "description" :=
                                        of_optional_str desc ]}) |}]
     ∧ history (delete session attr).2
       = history session
         ++ [{| method := DELETE; target := URL_str (url attr);
                body := None |}]).
Proof.
  split_and!; [| | | done].
  - intros dataset id r u Hr. by apply _from_url_outcome.
  - intros attr desc r Hr.
    unfold update, session.put, request. simpl. rewrite Hr. simpl.
    rewrite bind_assoc.
    apply (status_outcome_404_then_successful (url attr) r
             (λ r, Response_json r ≫= _from_json (url attr))).
  - intros attr r Hr.
    unfold delete, session.delete, request. simpl. rewrite Hr. simpl.
    apply (status_outcome_404_then_successful (url attr) r (λ _, Ok ())).
Qed.

(** ** Creation *)

(** What [_create] does with the answer to its request. *)
Lemma _create_result session dataset name nullable ty desc rq :
  let attrs_url := replace (dataset.url dataset)
                     (path (dataset.url dataset) +:+ "/attributes") in
  let item := replace attrs_url (path attrs_url +:+ "/" +:+ name) in
  history (_create session dataset name nullable ty desc).2
  = history session ++ [rq] →
  (_create session dataset name nullable ty desc).1
  = (r ← server session (history session) rq;
     if bool_decide (status_code r = 409)
     then Raise (AttributeExists (URL_str item))
     else (response.successful r ≫= Response_json) ≫= _from_json item).
Proof.
  intros attrs_url item. unfold _create, session.post, request. simpl.
  by intros [_ [= <-]]%app_inj_tail.
Qed.

(** C2: a [create] call with an unreserved name reaches the network: it
    sends the POST of the serialized arguments to the collection URL.  When
    the server answers it with [r], status 409 makes [create] raise
    [AttributeExists] with the prospective item URL, the collection URL
    with "/" and the requested name appended, so no attribute is returned;
    a 2xx status makes it return the deserialization of the response body
    at that same item URL; and it returns an attribute exactly when the
    status is 2xx and the body deserializes, at the item URL, to that
    attribute. *)
Theorem create_conflict_and_success
    session dataset nm nullable ty desc r :
  let attrs_url := replace (dataset.url dataset)
                     (path (dataset.url dataset) +:+ "/attributes") in
  let item := replace attrs_url (path attrs_url +:+ "/" +:+ nm) in
  let fields : JsonDict :=
    <["isNullable" := JBool nullable]>
      (<["type" := attribute_type_to_json ty]>
         (<["name" := JStr nm]> ∅)) in
  let rq := {| method := POST; target := URL_str attrs_url;
               body := Some (JObj match desc with
                                  | Some d => <["description" := JStr d]> fields
                                  | None => fields
                                  end) |} in
  nm ∉ _RESERVED_NAMES →
  server session (history session) rq = Ok r →
  history (create session dataset nm nullable ty desc).2
  = history session ++ [rq]
  ∧ (status_code r = 409 →
     (create session dataset nm nullable ty desc).1
     = Raise (AttributeExists (URL_str item)))
  ∧ (200 ≤ status_code r < 300 →
     (create session dataset nm nullable ty desc).1
     = Response_json r ≫= _from_json item)
  ∧ (∀ attr,
       (create session dataset nm nullable ty desc).1 = Ok attr ↔
       200 ≤ status_code r < 300
       ∧ ∃ data, content r = Some data ∧ _from_json item data = Ok attr).
Proof.
  intros attrs_url item fields rq Hnm Hr.
  assert (history (create session dataset nm nullable ty desc).2
          = history session ++ [rq]) as Hhist.
  { unfold create. rewrite bool_decide_eq_false_2 by done.
    unfold _create, session.post, request. simpl.
    by destruct desc. }
  assert ((create session dataset nm nullable ty desc).1
          = if bool_decide (status_code r = 409)
            then Raise (AttributeExists (URL_str item))
            else (response.successful r ≫= Response_json)
                 ≫= _from_json item) as Hres.
  { revert Hhist. unfold create. rewrite bool_decide_eq_false_2 by done.
    intros Hhist.
    by rewrite (_create_result _ _ _ _ _ _ rq Hhist), Hr. }
  rewrite Hres. split_and!; [done| | |].
  - intros H409. by rewrite bool_decide_eq_true_2.
  - intros H2xx. rewrite bool_decide_eq_false_2 by lia.
    by rewrite successful_2xx.
  - intros attr. case_bool_decide as H409.
    + split; [done | intros [? _]; lia].
    + destruct (decide (200 ≤ status_code r < 300)) as [H2xx|H2xx].
      * rewrite successful_2xx by done. simpl. unfold Response_json.
        destruct (content r) as [data|]; simpl.
        -- split; [by eauto | by intros [_ (? & [= <-] & ?)]].
        -- split; [done | by intros [_ (? & ? & _)]].
      * rewrite successful_not_2xx by done. simpl.
        split; [done | by intros [? _]].
Qed.

(** ** Update *)

(** C10: the request [update] sends is a PUT to the attribute's URL whose
    body is the one-key dictionary holding the description argument; with
    no description given the body is {"description": null}, whatever the
    attribute's own description; and two attributes with the same URL give
    the same request and the same outcome. *)
Theorem update_request_depends_on_description_only session attr desc :
  history (update session attr desc).2
  = history session
    ++ [{| method := PUT; target := URL_str (url attr);
           body := Some (JObj {[ "description" := of_optional_str desc ]}) |}]
  ∧ history (update session attr None).2
    = history session
      ++ [{| method := PUT; target := URL_str (url attr);
             body := Some (JObj {[ "description" := JNull ]}) |}]
  ∧ (∀ attr', url attr' = url attr →
       update session attr' desc = update session attr desc).
Proof.
  split_and!; [done | done |].
  intros attr' Hurl. unfold update. by rewrite Hurl.
Qed.

(** C5 (amended): a successful update returns the deserialization of the
    server's response body at the input attribute's URL: the URL is the
    input's whatever the body says, while name, nullability, type and
    description are the ones the body carries. *)
Theorem update_returns_response_at_same_url session attr desc attr' :
  (update session attr desc).1 = Ok attr' →
  url attr' = url attr
  ∧ ∃ r cp,
      server session (history session)
        {| method := PUT; target := URL_str (url attr);
           body := Some (JObj {[ "description" := of_optional_str desc ]}) |}
      = Ok r
      ∧ content r = Some (JObj cp)
      ∧ cp !! "name" = Some (name attr')
      ∧ cp !! "isNullable" = Some (is_nullable attr')
      ∧ getitem (JObj cp) "type" ≫= attribute_type_from_json
        = Ok (type attr')
      ∧ default JNull (cp !! "description") = description attr'.
Proof.
  unfold update, session.put, request. simpl.
  destruct (server _ _ _) as [r|] eqn:Hr; [|done]. simpl.
  case_bool_decide as H404; [done|].
  rewrite bind_assoc. intros (r' & Hsucc & Hjson)%bind_Ok.
  assert (r' = r) as ->.
  { unfold response.successful in Hsucc.
    destruct (response.is_2xx _); congruence. }
  apply bind_Ok in Hjson as (data & Hdata & Hattr).
  unfold Response_json in Hdata.
  destruct (content r) as [data'|] eqn:Hcontent; [|done].
  injection Hdata as ->.
  apply _from_json_Ok in Hattr
    as (cp & tj & -> & Hnm & Hd & Hnl & Htj & Hty & Hu & _).
  split; [done|]. exists r, cp. split_and!; try done.
  unfold getitem. by rewrite Htj.
Qed.

(** ** Fetching a whole collection *)

(** The loop appends, in order, the deserialization of each element. *)
Lemma from_dataset_all_loop_Ok attrs_url objs acc attrs :
  from_dataset_all_loop attrs_url objs acc = Ok attrs ↔
  ∃ new, attrs = acc ++ new ∧ Forall2 (deserialized_at attrs_url) objs new.
Proof.
  revert acc. induction objs as [|o objs IH]; intros acc; simpl.
  - split.
    + intros [= <-]. exists []. by rewrite app_nil_r.
    + intros (new & -> & ->%Forall2_nil_inv_l). by rewrite app_nil_r.
  - split.
    + intros (id & Hid & Hrest)%bind_Ok.
      apply bind_Ok in Hrest as (attr & Hattr & Hrest).
      apply IH in Hrest as (new & -> & Hnew).
      exists (attr :: new). split; [by rewrite <- app_assoc|].
      constructor; [|done]. by exists id.
    + intros (new & -> & Hall).
      apply Forall2_cons_inv_l in Hall
        as (attr & new' & (id & Hid & Hattr) & Hnew & ->).
      rewrite Hid. simpl. rewrite Hattr. simpl.
      apply IH. exists new'. by rewrite <- app_assoc.
Qed.

(** C6: when the collection fetch succeeds with a JSON list as its body,
    [from_dataset_all] returns a tuple exactly when every element
    deserializes, and that tuple has the length and the order of the
    server's list: its i-th attribute is the deserialization of the i-th
    element at the collection URL extended with "/" and the element's
    name. *)
Theorem from_dataset_all_preserves_order session dataset r objs :
  let attrs_url := replace (dataset.url dataset)
                     (path (dataset.url dataset) +:+ "/attributes") in
  server session (history session)
    {| method := GET; target := URL_str attrs_url; body := None |} = Ok r →
  200 ≤ status_code r < 300 →
  content r = Some (JArr objs) →
  (∀ attrs,
     (from_dataset_all session dataset).1 = Ok attrs ↔
     Forall2 (deserialized_at attrs_url) objs attrs)
  ∧ (∀ attrs,
       (from_dataset_all session dataset).1 = Ok attrs →
       List.length attrs = List.length objs
       ∧ ∀ i o, objs !! i = Some o →
           ∃ attr, attrs !! i = Some attr
                   ∧ deserialized_at attrs_url o attr
                   ∧ ∀ s, getitem o "name" = Ok (JStr s) →
                       url attr
                       = replace attrs_url (path attrs_url +:+ "/" +:+ s)).
Proof.
  intros attrs_url Hr H2xx Hbody.
  assert (∀ attrs,
            (from_dataset_all session dataset).1 = Ok attrs ↔
            Forall2 (deserialized_at attrs_url) objs attrs) as Hspec.
  { intros attrs. unfold from_dataset_all, session.get, request. simpl.
    fold attrs_url. rewrite Hr. simpl.
    rewrite successful_2xx by done. simpl.
    unfold Response_json. rewrite Hbody. simpl.
    rewrite from_dataset_all_loop_Ok. split.
    - by intros (new & -> & ?).
    - intros ?. by exists attrs. }
  split; [done|].
  intros attrs Hall%Hspec. split.
  - symmetry. by eapply Forall2_length.
  - intros i o Ho.
    destruct (Forall2_lookup_l _ _ _ _ _ Hall Ho) as (attr & Hattr & Hdes).
    exists attr. split_and!; try done.
    intros s Hs. destruct Hdes as (id & Hid & Hjson).
    rewrite Hs in Hid. injection Hid as <-.
    by apply _from_json_Ok in Hjson as (_ & _ & _ & _ & _ & _ & _ & _ & -> & _).
Qed.

End properties.

(** * Worked examples *)

Lemma primitive_roundtrip (t : sample.primitive) :
  sample.primitive_from_json (sample.primitive_to_json t) = Ok t.
Proof. by destruct t. Qed.

Lemma tamr_id_reserved : "tamr_id" ∈ _RESERVED_NAMES.
Proof. apply (bool_decide_unpack _). vm_compute. exact I. Defined.

Lemma x_not_reserved : "x" ∉ _RESERVED_NAMES.
Proof. apply (bool_decide_unpack _). vm_compute. exact I. Defined.

(** Fetching a missing id, updating against a failing server, deleting. *)
Lemma item_operations_status_mapping_examples :
  (from_resource_id (sample.always 404 None) sample.ds7 "foo").1
  = Raise (AttributeNotFound "http://tamr/datasets/7/attributes/foo")
  ∧ (update (sample.always 500 None) (sample.attr "a" None) (Some "x")).1
    = Raise (HTTPError {| status_code := 500; content := None |})
  ∧ (delete (sample.always 204 None) (sample.attr "a" None)).1 = Ok ().
Proof.
  split_and!.
  - destruct (item_operations_status_mapping (sample.always 404 None))
      as (Hget & _).
    destruct (Hget sample.ds7 "foo" {| status_code := 404; content := None |}
                eq_refl) as (H404 & _).
    exact (H404 eq_refl).
  - destruct (item_operations_status_mapping (sample.always 500 None))
      as (_ & Hput & _).
    destruct (Hput (sample.attr "a" None) (Some "x")
                {| status_code := 500; content := None |} eq_refl)
      as (_ & H500 & _).
    apply H500; simpl; lia.
  - destruct (item_operations_status_mapping (sample.always 204 None))
      as (_ & _ & Hdel & _).
    destruct (Hdel (sample.attr "a" None)
                {| status_code := 204; content := None |} eq_refl)
      as (_ & _ & H204).
    apply H204; simpl; lia.
Defined.

(** The server reports a conflict for the name "x"; another server accepts
    it and answers with the new attribute's payload. *)
Lemma create_conflict_example :
  (create (sample.always 409 None) sample.ds7 "x" true sample.STRING None).1
  = Raise (AttributeExists "http://tamr/datasets/7/attributes/x")
  ∧ (create (sample.always 201 (Some (sample.attr_json "x" (Some "d"))))
       sample.ds7 "x" true sample.STRING (Some "d")).1
    = Ok (sample.attr "x" (Some "d")).
Proof.
  split.
  - exact (proj1 (proj2 (create_conflict_and_success
                    (sample.always 409 None) sample.ds7 "x" true
                    sample.STRING None
                    {| status_code := 409; content := None |}
                    x_not_reserved eq_refl)) eq_refl).
  - refine (eq_trans
              (proj1 (proj2 (proj2 (create_conflict_and_success
                 (sample.always 201 (Some (sample.attr_json "x" (Some "d"))))
                 sample.ds7 "x" true sample.STRING (Some "d")
                 {| status_code := 201;
                    content := Some (sample.attr_json "x" (Some "d")) |}
                 x_not_reserved eq_refl))) _) _).
    + simpl. lia.
    + vm_compute. reflexivity.
Defined.


(** Round trip of an attribute with an empty description, at another URL. *)
Lemma from_json_to_json_roundtrip_example :
  ∃ attr',
    _from_json sample.attrs_url7 (JObj (to_json (sample.attr "a" (Some ""))))
    = Ok attr'
    ∧ name attr' = JStr "a"
    ∧ type attr' = sample.STRING
    ∧ is_nullable attr' = JBool true
    ∧ description attr' = JStr ""
    ∧ url attr' = sample.attrs_url7.
Proof.
  exact (from_json_to_json_roundtrip (sample.attr "a" (Some ""))
           sample.attrs_url7 primitive_roundtrip).
Defined.

(** The server answers a PUT on attribute "a" with the payload of an
    attribute named "b": the update succeeds and returns that name. *)
Lemma update_returns_the_name_in_the_response :
  (update (sample.always 200 (Some (sample.attr_json "b" None)))
     (sample.attr "a" None) (Some "new")).1
  = Ok {| url := url (sample.attr "a" None); name := JStr "b";
          type := sample.STRING; is_nullable := JBool true;
          _json := sample.attr_json "b" None; description := JNull |}
  ∧ name {| url := url (sample.attr "a" None); name := JStr "b";
            type := sample.STRING; is_nullable := JBool true;
            _json := sample.attr_json "b" None; description := JNull |}
    ≠ name (sample.attr "a" None).
Proof. split; [by vm_compute | done]. Qed.

(** The same exchange, read through the amended statement. *)
Lemma update_returns_response_at_same_url_example :
  url {| url := url (sample.attr "a" None); name := JStr "b";
         type := sample.STRING; is_nullable := JBool true;
         _json := sample.attr_json "b" None; description := JNull |}
  = url (sample.attr "a" None).
Proof.
  refine (proj1 (update_returns_response_at_same_url
            (sample.always 200 (Some (sample.attr_json "b" None)))
            (sample.attr "a" None) (Some "new") _ _)).
  vm_compute. reflexivity.
Defined.

(** Two attributes come back in the order the server listed them. *)
Lemma from_dataset_all_preserves_order_example :
  Forall2 (deserialized_at sample.attrs_url7)
    [sample.attr_json "a" None; sample.attr_json "b" (Some "x")]
    [sample.attr "a" None; sample.attr "b" (Some "x")].
Proof.
  refine (proj1 (proj1 (from_dataset_all_preserves_order
            (sample.always 200
               (Some (JArr [sample.attr_json "a" None;
                            sample.attr_json "b" (Some "x")])))
            sample.ds7
            {| status_code := 200;
               content := Some (JArr [sample.attr_json "a" None;
                                      sample.attr_json "b" (Some "x")]) |}
            [sample.attr_json "a" None; sample.attr_json "b" (Some "x")]
            eq_refl _ eq_refl) _) _).
  - simpl. lia.
  - vm_compute. reflexivity.
Defined.

(** A payload without "description", and one without "isNullable". *)
Lemma from_json_optional_and_required_example :
  _from_json sample.attrs_url7 (sample.attr_json "a" None)
  = Ok {| url := sample.attrs_url7; name := JStr "a"; type := sample.STRING;
          is_nullable := JBool true; _json := sample.attr_json "a" None;
          description := JNull |}
  ∧ _from_json sample.attrs_url7 (JObj {[ "name" := JStr "a" ]})
    = Raise (KeyError "isNullable").
Proof.
  split.
  - refine (proj1 (proj2 (from_json_optional_and_required
              sample.attrs_url7 (sample.attr_dict "a" None)))
              _ (JStr "a") (JBool true)
              (sample.primitive_to_json sample.STRING) sample.STRING
              _ _ _ _); reflexivity.
  - refine (proj2 (proj2 (proj2 (from_json_optional_and_required
              sample.attrs_url7 {[ "name" := JStr "a" ]})) _) _).
    + reflexivity.
    + by eexists.
Defined.

(** An empty description is serialized; a missing one is not. *)
Lemma to_json_description_key_example :
  to_json (sample.attr "a" (Some "")) !! "description" = Some (JStr "")
  ∧ to_json (sample.attr "a" None) !! "description" = None.
Proof.
  split.
  - exact (proj1 (proj2 (to_json_description_key
                           (sample.attr "a" (Some "")))) eq_refl).
  - exact (proj1 (proj2 (proj2 (to_json_description_key
                                  (sample.attr "a" None)))) eq_refl).
Defined.

(** For the name "x" the guard is transparent; for the reserved name
    "tamr_id" the unguarded path still posts, unlike the guarded one. *)
Lemma create_is__create_when_not_reserved_example :
  create (sample.always 200 (Some (sample.attr_json "x" None))) sample.ds7
    "x" true sample.STRING None
  = _create (sample.always 200 (Some (sample.attr_json "x" None))) sample.ds7
      "x" true sample.STRING None
  ∧ _create (sample.always 409 None) sample.ds7 "tamr_id" true sample.STRING
      None
    ≠ create (sample.always 409 None) sample.ds7 "tamr_id" true sample.STRING
        None.
Proof.
  split.
  - exact (proj1 (create_is__create_when_not_reserved
                    (sample.always 200 (Some (sample.attr_json "x" None)))
                    sample.ds7 "x" true sample.STRING None) x_not_reserved).
  - exact (proj2 (proj2 (proj2 (create_is__create_when_not_reserved
                    (sample.always 409 None) sample.ds7 "tamr_id" true
                    sample.STRING None))) tamr_id_reserved).
Defined.

(** Attributes that share a URL but nothing else are updated alike. *)
Lemma update_request_depends_on_description_only_example :
  update (sample.always 200 None)
    {| url := url (sample.attr "a" None); name := JStr "other";
       type := sample.DOUBLE; is_nullable := JBool false; _json := JNull;
       description := JStr "old" |} None
  = update (sample.always 200 None) (sample.attr "a" None) None.
Proof.
  exact (proj2 (proj2 (update_request_depends_on_description_only
                         (sample.always 200 None) (sample.attr "a" None)
                         None)) _ eq_refl).
Defined.

(** * Further properties of the code *)

Section further_properties.
Context `{Collaborators}.

Implicit Types (session : Session) (dataset : Dataset) (r : Response).
Implicit Types (u : URL) (a attr : Attribute) (cp : JsonDict).

(** ** Deserialization failures *)

(** The fields are read in the order name, isNullable, type, and the first
    one missing is the [KeyError]; a value that is not a dictionary is a
    [TypeError]; an exception of the attribute-type codec passes through. *)
Theorem from_json_first_failure u data :
  (∀ cp, data = JObj cp → cp !! "name" = None →
     _from_json u data = Raise (KeyError "name"))
  ∧ (∀ cp, data = JObj cp → is_Some (cp !! "name") →
     cp !! "isNullable" = None →
     _from_json u data = Raise (KeyError "isNullable"))
  ∧ (∀ cp, data = JObj cp → is_Some (cp !! "name") →
     is_Some (cp !! "isNullable") → cp !! "type" = None →
     _from_json u data = Raise (KeyError "type"))
  ∧ (∀ cp tj e, data = JObj cp → is_Some (cp !! "name") →
     is_Some (cp !! "isNullable") → cp !! "type" = Some tj →
     attribute_type_from_json tj = Raise e →
     _from_json u data = Raise e)
  ∧ ((∀ cp, data ≠ JObj cp) → _from_json u data = Raise TypeError).
Proof.
  unfold _from_json, getitem, get. split_and!.
  - by intros cp -> ->.
  - by intros cp -> [nm ->] ->.
  - by intros cp -> [nm ->] [nl ->] ->.
  - intros cp tj e -> [nm ->] [nl ->] ->. simpl. by intros ->.
  - intros Hnot. destruct data; try done. by destruct (Hnot fields).
Qed.

(** ** Deserialize, then serialize *)

Lemma to_json_other_keys attr key :
  key ∉ ["name"; "type"; "isNullable"; "description"] →
  to_json attr !! key = None.
Proof.
  intros Hkey. repeat (apply not_elem_of_cons in Hkey as [? Hkey]).
  unfold to_json. destruct (is_not_None (description attr));
    by rewrite !lookup_insert_ne.
Qed.

(** Serializing a deserialized payload keeps its name and nullability,
    keeps its description unless that was an explicit null (which is left
    out), writes the type as the codec re-encodes it, and drops every other
    key of the payload; the payload itself stays available, untouched, as
    the attribute's raw JSON. *)
Theorem to_json_after_from_json u cp attr :
  _from_json u (JObj cp) = Ok attr →
  _json attr = JObj cp
  ∧ to_json attr !! "name" = cp !! "name"
  ∧ to_json attr !! "isNullable" = cp !! "isNullable"
  ∧ to_json attr !! "description"
    = match cp !! "description" with Some JNull => None | o => o end
  ∧ to_json attr !! "type" = Some (attribute_type_to_json (type attr))
  ∧ (∀ key, key ∉ ["name"; "type"; "isNullable"; "description"] →
       to_json attr !! key = None).
Proof.
  intros Hok.
  apply _from_json_Ok in Hok
    as (cp' & tj & [= <-] & Hnm & Hd & Hnl & Htj & Hty & Hu & Hj).
  destruct (to_json_required attr) as (-> & -> & ->).
  rewrite to_json_description, <- Hd.
  split_and!; try done.
  - destruct (cp !! "description") as [[]|]; done.
  - intros key. apply to_json_other_keys.
Qed.

(** A deserialized payload is reproduced exactly by [to_json] if and only
    if it has no key beyond the four of the wire format, its description is
    not an explicit null, and the codec re-encodes the decoded type to the
    JSON it came from. *)
Theorem to_json_from_json_roundtrip u cp attr :
  _from_json u (JObj cp) = Ok attr →
  to_json attr = cp ↔
  (∀ tj, cp !! "type" = Some tj →
         attribute_type_to_json (type attr) = tj)
  ∧ (∀ key, is_Some (cp !! key) →
            key ∈ ["name"; "type"; "isNullable"; "description"])
  ∧ cp !! "description" ≠ Some JNull.
Proof.
  intros Hok.
  apply _from_json_Ok in Hok
    as (cp' & tj & [= <-] & Hnm & Hd & Hnl & Htj & Hty & Hu & Hj).
  destruct (to_json_required attr) as (Hn & Ht & Hi).
  split.
  - intros Heq. split_and!.
    + intros tj' Htj'. rewrite <- Heq, Ht in Htj'. by injection Htj'.
    + intros key Hkey.
      destruct (decide (key ∈ ["name"; "type"; "isNullable"; "description"]))
        as [Hin|Hout]; [done|].
      rewrite <- Heq, to_json_other_keys in Hkey by done.
      by destruct Hkey.
    + rewrite <- Heq, to_json_description.
      destruct (description attr); simpl; congruence.
  - intros (Hcodec & Hkeys & Hnull).
    apply map_eq. intros key.
    destruct (decide (key ∈ ["name"; "type"; "isNullable"; "description"]))
      as [Hin|Hout].
    + repeat (apply elem_of_cons in Hin as [->|Hin]).
      * by rewrite Hn.
      * rewrite Ht, Htj. f_equal. by apply Hcodec.
      * by rewrite Hi.
      * rewrite to_json_description, <- Hd.
        destruct (cp !! "description") as [[]|]; done.
      * by apply elem_of_nil in Hin.
    + rewrite to_json_other_keys by done.
      destruct (cp !! key) eqn:Hkey; [|done].
      destruct Hout. apply Hkeys. by rewrite Hkey.
Qed.

(** ** Creation, end to end *)

Lemma string_app_assoc (s1 s2 s3 : string) :
  (s1 +:+ s2) +:+ s3 = s1 +:+ s2 +:+ s3.
Proof.
  induction s1 as [|c s1 IH]; [reflexivity|].
  change (String c ((s1 +:+ s2) +:+ s3) = String c (s1 +:+ s2 +:+ s3)).
  by f_equal.
Qed.

(** The item URL [_create] computes in two steps is the one
    [from_resource_id] computes in one. *)
Lemma item_url_of_name dataset name :
  let attrs_url := replace (dataset.url dataset)
                     (path (dataset.url dataset) +:+ "/attributes") in
  replace attrs_url (path attrs_url +:+ "/" +:+ name)
  = replace (dataset.url dataset)
      (path (dataset.url dataset) +:+ "/attributes/" +:+ name).
Proof.
  unfold replace. cbn [path origin]. f_equal.
  by rewrite string_app_assoc.
Qed.

(** Deserializing a serialization, in full. *)
Lemma _from_json_of_to_json attr u :
  (∀ t, attribute_type_from_json (attribute_type_to_json t) = Ok t) →
  _from_json u (JObj (to_json attr))
  = Ok {| url := u; name := name attr; type := type attr;
          is_nullable := is_nullable attr; _json := JObj (to_json attr);
          description := description attr |}.
Proof.
  intros Hcodec. unfold _from_json, getitem, get.
  rewrite to_json_description.
  destruct (to_json_required attr) as (-> & -> & ->). simpl.
  rewrite Hcodec. simpl. by destruct (description attr).
Qed.

(** The body [_create] posts is the serialization [to_json] gives for an
    attribute with the requested name, type, nullability and description
    (wherever it lives and whatever its raw payload): the two serializers
    agree, key for key. *)
Theorem create_posts_the_serialization
    session dataset name nullable ty desc u raw :
  history (_create session dataset name nullable ty desc).2
  = history session
    ++ [{| method := POST;
           target := URL_str (replace (dataset.url dataset)
                                (path (dataset.url dataset) +:+ "/attributes"));
           body := Some (JObj (to_json
                     {| url := u; name := JStr name; type := ty;
                        is_nullable := JBool nullable; _json := raw;
                        description := of_optional_str desc |})) |}].
Proof.
  unfold _create, session.post, request, to_json. simpl.
  by destruct desc.
Qed.

(** Against a server that accepts a POST and echoes the posted body,
    [create] with an unreserved name returns an attribute with exactly the
    requested name, type, nullability and description, located at the
    collection URL extended by the name. *)
Theorem create_returns_what_was_requested
    session dataset nm nullable ty desc :
  (∀ t, attribute_type_from_json (attribute_type_to_json t) = Ok t) →
  nm ∉ _RESERVED_NAMES →
  (∀ rq, method rq = POST →
     ∃ r, server session (history session) rq = Ok r
          ∧ 200 ≤ status_code r < 300 ∧ content r = body rq) →
  ∃ attr,
    (create session dataset nm nullable ty desc).1 = Ok attr
    ∧ name attr = JStr nm
    ∧ type attr = ty
    ∧ is_nullable attr = JBool nullable
    ∧ description attr = of_optional_str desc
    ∧ url attr = replace (dataset.url dataset)
                   (path (dataset.url dataset) +:+ "/attributes/" +:+ nm).
Proof.
  intros Hcodec Hnm Hecho. unfold create.
  rewrite bool_decide_eq_false_2 by done.
  destruct (_create_history session dataset nm nullable ty desc)
    as (rq & Hpost & _ & Hhist & _).
  rewrite (_create_result _ _ _ _ _ _ rq Hhist).
  destruct (Hecho rq Hpost) as (r & -> & H2xx & Hbody). simpl.
  rewrite bool_decide_eq_false_2 by lia.
  rewrite successful_2xx by done. simpl.
  unfold Response_json. rewrite Hbody.
  assert (body rq = Some (JObj (to_json
            {| url := dataset.url dataset; name := JStr nm; type := ty;
               is_nullable := JBool nullable; _json := JNull;
               description := of_optional_str desc |}))) as ->.
  { revert Hhist. unfold _create, session.post, request, to_json. simpl.
    intros [_ <-]%app_inj_tail. simpl. by destruct desc. }
  simpl. rewrite _from_json_of_to_json by done.
  eexists. split; [done|]. simpl. split_and!; try done.
  apply item_url_of_name.
Qed.

(** Fetching by id right after a create: when the server answers the GET
    for the new name with the body it answered the POST with (both with a
    success status), [from_resource_id] returns what [create] returned, the
    same attribute or the same exception. *)
Theorem fetch_after_create session dataset name nullable ty desc rq r1 r2 :
  history (create session dataset name nullable ty desc).2
  = history session ++ [rq] →
  server session (history session) rq = Ok r1 →
  server session (history session ++ [rq])
    {| method := GET;
       target := URL_str (replace (dataset.url dataset)
                   (path (dataset.url dataset) +:+ "/attributes/" +:+ name));
       body := None |} = Ok r2 →
  200 ≤ status_code r1 < 300 →
  200 ≤ status_code r2 < 300 →
  content r2 = content r1 →
  (from_resource_id (create session dataset name nullable ty desc).2
     dataset name).1
  = (create session dataset name nullable ty desc).1.
Proof.
  unfold create. case_bool_decide as Hname.
  { simpl. by intros ?%history_not_extended. }
  intros Hhist Hr1 Hr2 H1 H2 Hcontent.
  rewrite (_create_result _ _ _ _ _ _ rq Hhist), Hr1.
  destruct (_create_history session dataset name nullable ty desc)
    as (rq' & _ & _ & _ & Hserver).
  set (s' := (_create session dataset name nullable ty desc).2) in *.
  clearbody s'.
  unfold from_resource_id, _from_url, session.get, request. simpl.
  rewrite Hserver, Hhist, Hr2. simpl.
  rewrite !bool_decide_eq_false_2 by lia.
  rewrite !successful_2xx by done. simpl.
  unfold Response_json. rewrite Hcontent.
  by rewrite item_url_of_name.
Qed.

(** ** Status codes and bodies the item mapping does not cover *)

(** [from_dataset_all] and [create] have no not-found case: on the
    collection fetch every status outside 2xx, 404 included, raises the
    transport's [HTTPError]; so does, for [create], every status outside
    2xx other than 409. *)
Theorem collection_operations_raise_HTTPError session :
  (∀ dataset r,
     server session (history session)
       {| method := GET;
          target := URL_str (replace (dataset.url dataset)
                      (path (dataset.url dataset) +:+ "/attributes"));
          body := None |} = Ok r →
     ¬ (200 ≤ status_code r < 300) →
     (from_dataset_all session dataset).1 = Raise (HTTPError r))
  ∧ (∀ dataset nm nullable ty desc rq r,
     history (create session dataset nm nullable ty desc).2
     = history session ++ [rq] →
     server session (history session) rq = Ok r →
     status_code r ≠ 409 → ¬ (200 ≤ status_code r < 300) →
     (create session dataset nm nullable ty desc).1 = Raise (HTTPError r)).
Proof.
  split.
  - intros dataset r Hr Hstatus.
    unfold from_dataset_all, session.get, request. simpl. rewrite Hr. simpl.
    by rewrite successful_not_2xx.
  - intros dataset nm nullable ty desc rq r. unfold create.
    case_bool_decide as Hnm.
    { simpl. by intros ?%history_not_extended. }
    intros Hhist Hr H409 Hstatus.
    rewrite (_create_result _ _ _ _ _ _ rq Hhist), Hr. simpl.
    rewrite bool_decide_eq_false_2 by done.
    by rewrite successful_not_2xx.
Qed.

Lemma body_not_a_dictionary_intro u r :
  200 ≤ status_code r < 300 →
  body_not_a_dictionary r
    ((response.successful r ≫= Response_json) ≫= _from_json u).
Proof.
  intros Hr. rewrite successful_2xx by done. simpl.
  unfold body_not_a_dictionary, Response_json. split.
  - by intros ->.
  - intros data -> Hnot. simpl. unfold _from_json, getitem.
    destruct data; try done. by destruct (Hnot fields).
Qed.

(** A success status is not enough for the operations that return an
    attribute: when the 2xx response has no JSON body they raise the
    decoding error, and when its body is JSON but not a dictionary they
    raise [TypeError]; this holds for fetch, update and create alike. *)
Theorem success_status_with_unusable_body session :
  (∀ dataset id r,
     server session (history session)
       {| method := GET;
          target := URL_str (replace (dataset.url dataset)
                      (path (dataset.url dataset) +:+ "/attributes/" +:+ id));
          body := None |} = Ok r →
     200 ≤ status_code r < 300 →
     body_not_a_dictionary r (from_resource_id session dataset id).1)
  ∧ (∀ attr desc r,
     server session (history session)
       {| method := PUT; target := URL_str (url attr);
          body := Some (JObj {[ "description" := of_optional_str desc ]}) |}
     = Ok r →
     200 ≤ status_code r < 300 →
     body_not_a_dictionary r (update session attr desc).1)
  ∧ (∀ dataset nm nullable ty desc rq r,
     history (create session dataset nm nullable ty desc).2
     = history session ++ [rq] →
     server session (history session) rq = Ok r →
     200 ≤ status_code r < 300 →
     body_not_a_dictionary r
       (create session dataset nm nullable ty desc).1).
Proof.
  split_and!.
  - intros dataset id r Hr Hstatus.
    unfold from_resource_id, _from_url, session.get, request. simpl.
    rewrite Hr. simpl. rewrite bool_decide_eq_false_2 by lia.
    by apply body_not_a_dictionary_intro.
  - intros attr desc r Hr Hstatus.
    unfold update, session.put, request. simpl.
    rewrite Hr. simpl. rewrite bool_decide_eq_false_2 by lia.
    by apply body_not_a_dictionary_intro.
  - intros dataset nm nullable ty desc rq r. unfold create.
    case_bool_decide as Hnm.
    { simpl. by intros ?%history_not_extended. }
    intros Hhist Hr Hstatus.
    rewrite (_create_result _ _ _ _ _ _ rq Hhist), Hr. simpl.
    rewrite bool_decide_eq_false_2 by lia.
    by apply body_not_a_dictionary_intro.
Qed.


(** Deleting the same attribute twice: when the server accepts the first
    DELETE and answers 404 to the second, the first call returns nothing
    and the second, made on the session the first one left, raises
    [AttributeNotFound] with the attribute's URL. *)
Theorem delete_twice session attr r1 r2 :
  let rq := {| method := DELETE; target := URL_str (url attr);
               body := None |} in
  server session (history session) rq = Ok r1 →
  200 ≤ status_code r1 < 300 →
  server session (history session ++ [rq]) rq = Ok r2 →
  status_code r2 = 404 →
  (delete session attr).1 = Ok ()
  ∧ (delete (delete session attr).2 attr).1
    = Raise (AttributeNotFound (URL_str (url attr))).
Proof.
  intros rq Hr1 H1 Hr2 H2.
  unfold delete, session.delete, request. simpl. fold rq.
  rewrite Hr1, Hr2. simpl.
  rewrite bool_decide_eq_false_2 by lia.
  rewrite successful_2xx by done. simpl.
  by rewrite bool_decide_eq_true_2.
Qed.

(** ** More on fetching a whole collection *)

Lemma deserialized_at_item attrs_url o attr :
  deserialized_at attrs_url o attr ↔ deserialize_item attrs_url o = Ok attr.
Proof.
  unfold deserialized_at, deserialize_item. by rewrite bind_Ok.
Qed.

Lemma deserialized_at_inv attrs_url o attr :
  deserialized_at attrs_url o attr →
  _json attr = o
  ∧ url attr
    = replace attrs_url (path attrs_url +:+ "/" +:+ fstr (name attr)).
Proof.
  intros (id & Hid & Hattr).
  apply _from_json_Ok in Hattr
    as (cp & tj & -> & Hnm & _ & _ & _ & _ & Hu & Hj).
  apply getitem_Ok in Hid. rewrite Hnm in Hid. injection Hid as <-.
  done.
Qed.

(** What the body of a successful collection fetch is iterated as. *)
Lemma from_dataset_all_result session dataset r :
  let attrs_url := replace (dataset.url dataset)
                     (path (dataset.url dataset) +:+ "/attributes") in
  server session (history session)
    {| method := GET; target := URL_str attrs_url; body := None |} = Ok r →
  200 ≤ status_code r < 300 →
  (from_dataset_all session dataset).1
  = (Response_json r ≫= iter)
    ≫= λ items, from_dataset_all_loop attrs_url items [].
Proof.
  intros attrs_url Hr Hstatus.
  unfold from_dataset_all, session.get, request. simpl. fold attrs_url.
  rewrite Hr. simpl. rewrite successful_2xx by done. simpl.
  by destruct (Response_json r).
Qed.

(** Every attribute [from_dataset_all] returns carries the collection
    element it was read from as its raw JSON, in the server's order, and
    lives at the collection URL extended by its own name; so an attribute
    whose name is a string is the one [from_resource_id] asks for under
    that name. *)
Theorem listed_attributes_carry_their_address session dataset attrs :
  let attrs_url := replace (dataset.url dataset)
                     (path (dataset.url dataset) +:+ "/attributes") in
  (from_dataset_all session dataset).1 = Ok attrs →
  (∃ r items,
     server session (history session)
       {| method := GET; target := URL_str attrs_url; body := None |} = Ok r
     ∧ Response_json r ≫= iter = Ok items
     ∧ _json <$> attrs = items)
  ∧ Forall (λ attr,
      url attr
      = replace attrs_url (path attrs_url +:+ "/" +:+ fstr (name attr)))
      attrs
  ∧ (∀ attr s session',
       attr ∈ attrs → name attr = JStr s →
       from_resource_id session' dataset s = _from_url session' (url attr)).
Proof.
  intros attrs_url.
  unfold from_dataset_all, session.get, request. simpl. fold attrs_url.
  destruct (server _ _ _) as [r|] eqn:Hr; [|done]. simpl.
  intros (body & Hbody & Hloop)%bind_Ok.
  apply bind_Ok in Hbody as (r' & Hsucc & Hjson).
  assert (r' = r) as ->.
  { unfold response.successful in Hsucc.
    destruct (response.is_2xx _); congruence. }
  apply bind_Ok in Hloop as (items & Hitems & Hloop).
  apply from_dataset_all_loop_Ok in Hloop as (new & -> & Hall). simpl.
  assert (_json <$> new = items
          ∧ Forall (λ attr,
              url attr
              = replace attrs_url
                  (path attrs_url +:+ "/" +:+ fstr (name attr))) new)
    as [Hraw Hurl].
  { clear Hitems. induction Hall as [|o attr objs new Hone _ [IH1 IH2]].
    - by split.
    - apply deserialized_at_inv in Hone as [Hj Hu]. split.
      + by rewrite fmap_cons, Hj, IH1.
      + by constructor. }
  split_and!; [|done|].
  - exists r, items. rewrite Hjson. simpl. by rewrite Hitems.
  - intros attr s session' Hin Hname.
    rewrite Forall_forall in Hurl. rewrite (Hurl attr Hin), Hname.
    unfold from_resource_id, fstr. f_equal. symmetry.
    apply item_url_of_name.
Qed.

Lemma from_dataset_all_loop_failure attrs_url good bad rest acc e :
  Forall (λ o, ∃ attr, deserialized_at attrs_url o attr) good →
  deserialize_item attrs_url bad = Raise e →
  from_dataset_all_loop attrs_url (good ++ bad :: rest) acc = Raise e.
Proof.
  intros Hgood Hbad. revert acc.
  induction Hgood as [|o good [attr (id & Hid & Hattr)] _ IH]; intros acc.
  - simpl. unfold deserialize_item in Hbad.
    destruct (getitem bad "name") as [id|]; simpl in *.
    + by rewrite Hbad.
    + by injection Hbad as ->.
  - simpl. rewrite Hid. simpl. rewrite Hattr. simpl. apply IH.
Qed.

(** The collection fetch is all or nothing: the first element of the
    server's list that does not deserialize makes the whole call raise that
    element's exception, whatever follows it. *)
Theorem from_dataset_all_first_failure session dataset r good bad rest e :
  let attrs_url := replace (dataset.url dataset)
                     (path (dataset.url dataset) +:+ "/attributes") in
  server session (history session)
    {| method := GET; target := URL_str attrs_url; body := None |} = Ok r →
  200 ≤ status_code r < 300 →
  content r = Some (JArr (good ++ bad :: rest)) →
  Forall (λ o, ∃ attr, deserialized_at attrs_url o attr) good →
  deserialize_item attrs_url bad = Raise e →
  (from_dataset_all session dataset).1 = Raise e.
Proof.
  intros attrs_url Hr Hstatus Hbody Hgood Hbad.
  rewrite (from_dataset_all_result _ _ r Hr Hstatus).
  unfold Response_json. rewrite Hbody. simpl.
  by apply from_dataset_all_loop_failure.
Qed.

(** A success body that is not a list: an empty dictionary or an empty
    string is iterated like an empty list and gives the empty tuple, a
    non-empty dictionary or string raises [TypeError] on its first key or
    character, and null, a boolean or a number raises [TypeError] for not
    being iterable. *)
Theorem from_dataset_all_body_not_a_list session dataset r data :
  server session (history session)
    {| method := GET;
       target := URL_str (replace (dataset.url dataset)
                   (path (dataset.url dataset) +:+ "/attributes"));
       body := None |} = Ok r →
  200 ≤ status_code r < 300 →
  content r = Some data →
  (data = JArr [] ∨ data = JObj ∅ ∨ data = JStr "" →
     (from_dataset_all session dataset).1 = Ok [])
  ∧ ((∃ cp, data = JObj cp ∧ cp ≠ ∅) ∨ (∃ s, data = JStr s ∧ s ≠ "")
     ∨ data = JNull ∨ (∃ b, data = JBool b) ∨ (∃ n, data = JInt n)
     ∨ (∃ x, data = JFloat x) →
     (from_dataset_all session dataset).1 = Raise TypeError).
Proof.
  intros Hr Hstatus Hbody.
  rewrite (from_dataset_all_result _ _ r Hr Hstatus).
  unfold Response_json. rewrite Hbody. simpl. split.
  - by intros [-> | [-> | ->]].
  - intros [(cp & -> & Hcp) | [(s & -> & Hs) | [-> | [[b ->] | [[n ->] | [x ->]]]]]];
      simpl; try done.
    + destruct (map_to_list cp) as [|[k v] l] eqn:Hl; [|done].
      by apply map_to_list_empty_iff in Hl.
    + by destruct s.
Qed.

(** ** What every returned attribute satisfies *)

Lemma read_attribute_Ok u r attr :
  (response.successful r ≫= Response_json) ≫= _from_json u = Ok attr →
  ∃ data, content r = Some data ∧ _from_json u data = Ok attr.
Proof.
  intros (data & Hdata & Hattr)%bind_Ok.
  apply bind_Ok in Hdata as (r' & Hsucc & Hjson).
  assert (r' = r) as ->.
  { unfold response.successful in Hsucc.
    destruct (response.is_2xx _); congruence. }
  unfold Response_json in Hjson.
  destruct (content r) as [data'|]; [|done].
  injection Hjson as ->. by exists data.
Qed.

Lemma _from_json_reproducible u data attr :
  _from_json u data = Ok attr →
  _from_json (url attr) (_json attr) = Ok attr.
Proof.
  intros Hattr.
  destruct (proj1 (_from_json_Ok u data attr) Hattr)
    as (cp & tj & _ & _ & _ & _ & _ & _ & Hu & Hj).
  by rewrite Hu, Hj.
Qed.

(** Whichever operation returned it (fetch by id, fetch all, create or
    update), an attribute is the deserialization of its own raw JSON at
    its own URL: the two together determine every other field. *)
Theorem returned_attributes_are_reproducible session :
  (∀ dataset id attr,
     (from_resource_id session dataset id).1 = Ok attr →
     _from_json (url attr) (_json attr) = Ok attr)
  ∧ (∀ dataset attrs,
     (from_dataset_all session dataset).1 = Ok attrs →
     Forall (λ attr, _from_json (url attr) (_json attr) = Ok attr) attrs)
  ∧ (∀ dataset nm nullable ty desc attr,
     (create session dataset nm nullable ty desc).1 = Ok attr →
     _from_json (url attr) (_json attr) = Ok attr)
  ∧ (∀ attr0 desc attr,
     (update session attr0 desc).1 = Ok attr →
     _from_json (url attr) (_json attr) = Ok attr).
Proof.
  split_and!.
  - intros dataset id attr.
    unfold from_resource_id, _from_url, session.get, request. simpl.
    destruct (server _ _ _) as [r|]; [|done]. simpl.
    case_bool_decide; [done|].
    intros (data & _ & Hattr)%read_attribute_Ok.
    by eapply _from_json_reproducible.
  - intros dataset attrs.
    unfold from_dataset_all, session.get, request. simpl.
    destruct (server _ _ _) as [r|]; [|done]. simpl.
    intros (body & _ & (items & _ & Hloop)%bind_Ok)%bind_Ok.
    apply from_dataset_all_loop_Ok in Hloop as (new & -> & Hall). simpl.
    induction Hall as [|o attr objs new (id & _ & Hattr) _ IH];
      constructor; [|done].
    by eapply _from_json_reproducible.
  - intros dataset nm nullable ty desc attr. unfold create.
    case_bool_decide; [done|].
    unfold _create, session.post, request. simpl.
    destruct (server _ _ _) as [r|]; [|done]. simpl.
    case_bool_decide; [done|].
    intros (data & _ & Hattr)%read_attribute_Ok.
    by eapply _from_json_reproducible.
  - intros attr0 desc attr.
    unfold update, session.put, request. simpl.
    destruct (server _ _ _) as [r|]; [|done]. simpl.
    case_bool_decide; [done|].
    intros (data & _ & Hattr)%read_attribute_Ok.
    by eapply _from_json_reproducible.
Qed.

(** The list and the item fetch agree: when a server answers the GET for
    a listed attribute's name with that attribute's raw JSON,
    [from_resource_id] returns the very attribute [from_dataset_all]
    returned. *)
Theorem fetch_of_listed_attribute
    session dataset attrs attr s session' r :
  (from_dataset_all session dataset).1 = Ok attrs →
  attr ∈ attrs →
  name attr = JStr s →
  server session' (history session')
    {| method := GET; target := URL_str (url attr); body := None |} = Ok r →
  200 ≤ status_code r < 300 →
  content r = Some (_json attr) →
  (from_resource_id session' dataset s).1 = Ok attr.
Proof.
  intros Hlist Hin Hname Hr Hstatus Hbody.
  revert Hlist. unfold from_dataset_all, session.get, request. simpl.
  destruct (server session _ _) as [r0|]; [|done]. simpl.
  intros (body & _ & (items & _ & Hloop)%bind_Ok)%bind_Ok.
  apply from_dataset_all_loop_Ok in Hloop as (new & -> & Hall).
  simpl in Hin.
  assert (∃ o, deserialized_at
                 (replace (dataset.url dataset)
                    (path (dataset.url dataset) +:+ "/attributes")) o attr)
    as (o & Hdes).
  { clear -Hall Hin. induction Hall as [|o a objs new Hone _ IH].
    - by apply elem_of_nil in Hin.
    - apply elem_of_cons in Hin as [->|Hin]; [by exists o | by apply IH]. }
  pose proof (deserialized_at_inv _ _ _ Hdes) as [Hj Hu].
  destruct Hdes as (id & _ & Hattr).
  apply _from_json_reproducible in Hattr.
  assert (replace (dataset.url dataset)
            (path (dataset.url dataset) +:+ "/attributes/" +:+ s)
          = url attr) as Hitem.
  { rewrite Hu, Hname. unfold fstr. symmetry. apply item_url_of_name. }
  unfold from_resource_id. rewrite Hitem.
  unfold _from_url, session.get, request. simpl. rewrite Hr. simpl.
  rewrite bool_decide_eq_false_2 by lia.
  rewrite successful_2xx by done. simpl.
  unfold Response_json. rewrite Hbody. simpl. done.
Qed.

End further_properties.

(** * More worked examples *)

(** A payload with a null description and a key the wire format does not
    know. *)
Lemma to_json_after_from_json_example :
  to_json {| url := sample.attrs_url7; name := JStr "a";
             type := sample.STRING; is_nullable := JBool true;
             _json := JObj (<["description" := JNull]>
                              (<["version" := JInt 3]>
                                 (sample.attr_dict "a" None)));
             description := JNull |} !! "description" = None
  ∧ to_json {| url := sample.attrs_url7; name := JStr "a";
               type := sample.STRING; is_nullable := JBool true;
               _json := JObj (<["description" := JNull]>
                                (<["version" := JInt 3]>
                                   (sample.attr_dict "a" None)));
               description := JNull |} !! "version" = None.
Proof.
  pose proof (to_json_after_from_json sample.attrs_url7
                (<["description" := JNull]>
                   (<["version" := JInt 3]> (sample.attr_dict "a" None)))
                _ eq_refl) as (_ & _ & _ & Hd & _ & Hother).
  split; [exact Hd|].
  apply Hother. apply (bool_decide_unpack _). vm_compute. exact I.
Defined.

(** The payload of attribute "a" with a description comes back as it is;
    with one more key it does not. *)
Lemma to_json_from_json_roundtrip_example :
  to_json (sample.attr "a" (Some "d")) = sample.attr_dict "a" (Some "d")
  ∧ to_json sample.versioned ≠ sample.versioned_dict.
Proof.
  split.
  - refine (proj2 (to_json_from_json_roundtrip
              (url (sample.attr "a" (Some "d")))
              (sample.attr_dict "a" (Some "d")) (sample.attr "a" (Some "d"))
              eq_refl) _).
    split_and!.
    + intros tj Htj. vm_compute in Htj. injection Htj as <-. reflexivity.
    + intros key [v Hv].
      destruct (decide (key ∈ ["name"; "type"; "isNullable"; "description"]))
        as [|Hout]; [done|].
      repeat (apply not_elem_of_cons in Hout as [? Hout]).
      unfold sample.attr_dict in Hv. by rewrite !lookup_insert_ne in Hv.
    + vm_compute. discriminate.
  - intros Heq.
    destruct (proj1 (to_json_from_json_roundtrip sample.attrs_url7
                sample.versioned_dict sample.versioned eq_refl) Heq)
      as (_ & Hkeys & _).
    assert ("version" ∈ ["name"; "type"; "isNullable"; "description"])
      as Hin by (apply Hkeys; by eexists).
    revert Hin. apply (bool_decide_unpack _). vm_compute. exact I.
Defined.

(** Creating "x" against the echoing server. *)
Lemma create_returns_what_was_requested_example :
  ∃ attr,
    (create sample.echo sample.ds7 "x" false sample.DOUBLE (Some "d")).1
    = Ok attr
    ∧ name attr = JStr "x"
    ∧ type attr = sample.DOUBLE
    ∧ is_nullable attr = JBool false
    ∧ description attr = JStr "d"
    ∧ url attr = {| origin := "http://tamr";
                    path := "datasets/7/attributes/x" |}.
Proof.
  refine (create_returns_what_was_requested sample.echo sample.ds7 "x" false
            sample.DOUBLE (Some "d") primitive_roundtrip x_not_reserved _).
  intros rq _. eexists. split; [reflexivity|]. simpl. split; [lia | done].
Defined.

(** Create "x", then fetch "x", from a server that always answers with the
    same payload. *)
Lemma fetch_after_create_example :
  (from_resource_id
     (create (sample.always 200 (Some (sample.attr_json "x" None)))
        sample.ds7 "x" true sample.STRING None).2
     sample.ds7 "x").1
  = (create (sample.always 200 (Some (sample.attr_json "x" None)))
       sample.ds7 "x" true sample.STRING None).1.
Proof.
  refine (fetch_after_create
            (sample.always 200 (Some (sample.attr_json "x" None)))
            sample.ds7 "x" true sample.STRING None
            {| method := POST; target := "http://tamr/datasets/7/attributes";
               body := Some (sample.attr_json "x" None) |}
            {| status_code := 200;
               content := Some (sample.attr_json "x" None) |}
            {| status_code := 200;
               content := Some (sample.attr_json "x" None) |}
            _ eq_refl eq_refl _ _ eq_refl).
  - vm_compute. reflexivity.
  - simpl. lia.
  - simpl. lia.
Defined.


(** Deleting attribute "a" twice from the removing server. *)
Lemma delete_twice_example :
  (delete sample.removing (sample.attr "a" None)).1 = Ok ()
  ∧ (delete (delete sample.removing (sample.attr "a" None)).2
       (sample.attr "a" None)).1
    = Raise (AttributeNotFound "http://tamr/datasets/7/attributes/a").
Proof.
  refine (delete_twice sample.removing (sample.attr "a" None)
            {| status_code := 200; content := None |}
            {| status_code := 404; content := None |} eq_refl _ eq_refl
            eq_refl).
  simpl. lia.
Defined.

(** The two listed attributes and their addresses. *)
Lemma listed_attributes_carry_their_address_example :
  Forall (λ attr,
    url attr
    = replace sample.attrs_url7
        (path sample.attrs_url7 +:+ "/" +:+ fstr (name attr)))
    [sample.attr "a" None; sample.attr "b" (Some "x")].
Proof.
  refine (proj1 (proj2 (listed_attributes_carry_their_address
            (sample.always 200
               (Some (JArr [sample.attr_json "a" None;
                            sample.attr_json "b" (Some "x")])))
            sample.ds7
            [sample.attr "a" None; sample.attr "b" (Some "x")] _))).
  vm_compute. reflexivity.
Defined.

(** The second of three elements has no "isNullable". *)
Lemma from_dataset_all_first_failure_example :
  (from_dataset_all
     (sample.always 200
        (Some (JArr [sample.attr_json "a" None;
                     JObj {[ "name" := JStr "b" ]};
                     sample.attr_json "c" None])))
     sample.ds7).1
  = Raise (KeyError "isNullable").
Proof.
  refine (from_dataset_all_first_failure
            (sample.always 200
               (Some (JArr [sample.attr_json "a" None;
                            JObj {[ "name" := JStr "b" ]};
                            sample.attr_json "c" None])))
            sample.ds7
            {| status_code := 200;
               content :=
                 Some (JArr [sample.attr_json "a" None;
                             JObj {[ "name" := JStr "b" ]};
                             sample.attr_json "c" None]) |}
            [sample.attr_json "a" None] (JObj {[ "name" := JStr "b" ]})
            [sample.attr_json "c" None] (KeyError "isNullable")
            eq_refl _ eq_refl _ _).
  - simpl. lia.
  - constructor; [|constructor].
    exists (sample.attr "a" None), (JStr "a"). split; vm_compute; reflexivity.
  - vm_compute. reflexivity.
Defined.

(** An empty dictionary where the list was expected. *)
Lemma from_dataset_all_body_not_a_list_example :
  (from_dataset_all (sample.always 200 (Some (JObj ∅))) sample.ds7).1 = Ok []
  ∧ (from_dataset_all (sample.always 200 (Some (JInt 0))) sample.ds7).1
    = Raise TypeError.
Proof.
  split.
  - refine (proj1 (from_dataset_all_body_not_a_list
              (sample.always 200 (Some (JObj ∅))) sample.ds7
              {| status_code := 200; content := Some (JObj ∅) |} (JObj ∅)
              eq_refl _ eq_refl) _).
    + simpl. lia.
    + right. by left.
  - refine (proj2 (from_dataset_all_body_not_a_list
              (sample.always 200 (Some (JInt 0))) sample.ds7
              {| status_code := 200; content := Some (JInt 0) |} (JInt 0)
              eq_refl _ eq_refl) _).
    + simpl. lia.
    + do 4 right. left. by exists 0.
Defined.

(** Attribute "b" of a listing, fetched again by its name. *)
Lemma fetch_of_listed_attribute_example :
  (from_resource_id
     (sample.always 200 (Some (sample.attr_json "b" (Some "x"))))
     sample.ds7 "b").1
  = Ok (sample.attr "b" (Some "x")).
Proof.
  refine (fetch_of_listed_attribute
            (sample.always 200
               (Some (JArr [sample.attr_json "a" None;
                            sample.attr_json "b" (Some "x")])))
            sample.ds7
            [sample.attr "a" None; sample.attr "b" (Some "x")]
            (sample.attr "b" (Some "x")) "b"
            (sample.always 200 (Some (sample.attr_json "b" (Some "x"))))
            {| status_code := 200;
               content := Some (sample.attr_json "b" (Some "x")) |}
            _ _ eq_refl eq_refl _ eq_refl).
  - vm_compute. reflexivity.
  - do 2 constructor.
  - simpl. lia.
Defined.
